(** * Naruto hand-gesture trainer: the classification core

    A shallow embedding of [src/hand_detector.py] (finger-state extraction)
    and [src/gesture_recognizer.py] (two-hand template matching, the
    hold/cooldown confirmer and the sliding-window stabilizer), followed by
    the properties of the specification that were checked against it.

    Conventions of the embedding:
    - Python [float] is IEEE binary64, modelled by Rocq's primitive floats,
      so every confidence value below is the very double the interpreter
      computes and can be evaluated.
    - Python [int] is [Z].  An [int] meeting a [float] in arithmetic is
      converted first ([float_of_int]); this is exact below 2^53, far above
      any pixel coordinate or counter of the program.
    - Clock readings ([time.time()]) are passed in explicitly and measured
      in integer ticks of a fixed resolution; [hold_time] and [cooldown] are
      expressed in the same unit.  The confirmer only subtracts and compares
      them.
    - A Python exception is a [Raise] in the [result] monad.  No method of
      the recognizer mutates [self] before a point where it can raise, so a
      raised exception leaves the previous state in place. *)

Set Warnings "-inexact-float".
From Stdlib Require Import ZArith Floats Uint63 Lia.
From stdpp Require Import base option list gmap strings.

(** ** Python runtime notions *)

Module Py.

Inductive exn : Type :=
| IndexError
| ZeroDivisionError
| TypeError.

Inductive result (A : Type) : Type :=
| Ok (a : A)
| Raise (e : exn).
Arguments Ok {A} a.
Arguments Raise {A} e.

#[global] Instance result_ret : MRet result := fun A a => Ok a.
#[global] Instance result_bind : MBind result := fun A B f m =>
  match m with
  | Ok a => f a
  | Raise e => Raise e
  end.

(** [float(n)] for an [int] [n]. *)
Definition float_of_int (z : Z) : float :=
  if (z <? 0)%Z then PrimFloat.opp (PrimFloat.of_uint63 (Uint63.of_Z (- z)))
  else PrimFloat.of_uint63 (Uint63.of_Z z).

(** [max(a, b)] and [min(a, b)]: the first argument is kept unless the
    second is strictly better. *)
Definition max (a b : float) : float := if PrimFloat.ltb a b then b else a.
Definition min (a b : float) : float := if PrimFloat.ltb b a then b else a.

(** [l[i]] on a list, with a non-negative index. *)
Definition getitem {A : Type} (l : list A) (i : nat) : result A :=
  match l !! i with
  | Some x => Ok x
  | None => Raise IndexError
  end.

(** [d.get(k, dflt)] on a dict. *)
Definition get {V : Type} (d : gmap string V) (k : string) (dflt : V) : V :=
  default dflt (d !! k).

(** [a / b] on two [int]s: true division. *)
Definition truediv (a b : Z) : result float :=
  if (b =? 0)%Z then Raise ZeroDivisionError
  else Ok (PrimFloat.div (float_of_int a) (float_of_int b)).

(** Truth value of a [str]: non-empty. *)
Definition truthy_str (s : string) : bool := negb (String.eqb s "").

(** Truth value of a dict: non-empty. *)
Definition truthy_dict {V : Type} (d : gmap string V) : bool :=
  negb (bool_decide (d = ∅)).

End Py.
Import Py.

(** ** [src/hand_detector.py] *)

Module hand_detector.

(** One landmark [(x, y, z)]: [get_hands] stores pixel coordinates
    [int(lm.x * frame_width)], [int(lm.y * frame_height)] and the raw
    depth. *)
Definition landmark : Type := Z * Z * float.

Record HandLandmarks : Type := {
  landmarks : list landmark;
  handedness : string;
  confidence : float;
  bounding_box : Z * Z * Z * Z
}.

Definition WRIST : nat := 0.
Definition THUMB_CMC : nat := 1.
Definition THUMB_MCP : nat := 2.
Definition THUMB_IP : nat := 3.
Definition THUMB_TIP : nat := 4.
Definition INDEX_MCP : nat := 5.
Definition INDEX_PIP : nat := 6.
Definition INDEX_DIP : nat := 7.
Definition INDEX_TIP : nat := 8.
Definition MIDDLE_MCP : nat := 9.
Definition MIDDLE_PIP : nat := 10.
Definition MIDDLE_DIP : nat := 11.
Definition MIDDLE_TIP : nat := 12.
Definition RING_MCP : nat := 13.
Definition RING_PIP : nat := 14.
Definition RING_DIP : nat := 15.
Definition RING_TIP : nat := 16.
Definition PINKY_MCP : nat := 17.
Definition PINKY_PIP : nat := 18.
Definition PINKY_DIP : nat := 19.
Definition PINKY_TIP : nat := 20.

(** [_get_hand_size]: distance between the wrist and the middle
    fingertip.  The squares and their sum are integer arithmetic;
    [** 0.5] is the binary64 square root of the converted sum. *)
Definition _get_hand_size (lms : list landmark) : result float :=
  wrist ← getitem lms WRIST;
  middle_tip ← getitem lms MIDDLE_TIP;
  Ok (PrimFloat.sqrt
        (float_of_int ((wrist.1.1 - middle_tip.1.1) ^ 2
                       + (wrist.1.2 - middle_tip.1.2) ^ 2)%Z)).

(** [a < b - threshold] with [a], [b] pixel coordinates. *)
Definition below (a b : Z) (threshold : float) : bool :=
  PrimFloat.ltb (float_of_int a) (PrimFloat.sub (float_of_int b) threshold).

(** [a > b + threshold] with [a], [b] pixel coordinates. *)
Definition above (a b : Z) (threshold : float) : bool :=
  PrimFloat.ltb (PrimFloat.add (float_of_int b) threshold) (float_of_int a).

Definition get_finger_states (hand : HandLandmarks) : result (gmap string bool) :=
  let lm := landmarks hand in
  hand_size ← _get_hand_size lm;
  let threshold := PrimFloat.mul hand_size 0.05%float in
  thumb ← (if String.eqb (handedness hand) "Right" then
             tip ← getitem lm THUMB_TIP;
             ip ← getitem lm THUMB_IP;
             Ok (below tip.1.1 ip.1.1 threshold)
           else
             tip ← getitem lm THUMB_TIP;
             ip ← getitem lm THUMB_IP;
             Ok (above tip.1.1 ip.1.1 threshold));
  index ← (tip ← getitem lm INDEX_TIP;
           pip ← getitem lm INDEX_PIP;
           Ok (below tip.1.2 pip.1.2 threshold));
  middle ← (tip ← getitem lm MIDDLE_TIP;
            pip ← getitem lm MIDDLE_PIP;
            Ok (below tip.1.2 pip.1.2 threshold));
  ring ← (tip ← getitem lm RING_TIP;
          pip ← getitem lm RING_PIP;
          Ok (below tip.1.2 pip.1.2 threshold));
  pinky ← (tip ← getitem lm PINKY_TIP;
           pip ← getitem lm PINKY_PIP;
           Ok (below tip.1.2 pip.1.2 threshold));
  Ok (<["thumb" := thumb]>
      (<["index" := index]>
       (<["middle" := middle]>
        (<["ring" := ring]>
         (<["pinky" := pinky]> ∅))))).

End hand_detector.
Import hand_detector.

(** ** [src/gesture_recognizer.py] *)

Module gesture_recognizer.

(** A gesture template: one value of the [GESTURE_DEFINITIONS] dict.  The
    fields read with [sign_def.get(key, default)] are optional. *)
Record SignDef : Type := {
  name : string;
  description : string;
  left_hand : option (gmap string bool);
  right_hand : option (gmap string bool);
  hands_close : bool;
  priority : option Z
}.

(** A dict literal [{'thumb': t, 'index': i, 'middle': m, 'ring': r,
    'pinky': p}]. *)
Definition fingers (t i m r p : bool) : gmap string bool :=
  <["thumb" := t]>
  (<["index" := i]>
   (<["middle" := m]>
    (<["ring" := r]>
     (<["pinky" := p]> ∅)))).

Definition two_hand_sign (n d : string) (l r : gmap string bool) (p : Z) : SignDef :=
  {| name := n; description := d; left_hand := Some l; right_hand := Some r;
     hands_close := true; priority := Some p |}.

Definition tiger : SignDef :=
  two_hand_sign "Tiger" "Index et majeurs leves des deux mains (pistolet)"
    (fingers false true true false false) (fingers false true true false false) 10.
Definition horse : SignDef :=
  two_hand_sign "Horse" "Index pointes des deux mains"
    (fingers false true false false false) (fingers false true false false false) 10.
Definition monkey : SignDef :=
  two_hand_sign "Monkey" "Mains ouvertes (tous doigts leves)"
    (fingers true true true true true) (fingers true true true true true) 9.
Definition dog : SignDef :=
  two_hand_sign "Dog" "Poing gauche + main droite ouverte"
    (fingers false false false false false) (fingers true true true true true) 10.
Definition snake : SignDef :=
  two_hand_sign "Snake" "Poings fermes (tous doigts baisses)"
    (fingers false false false false false) (fingers false false false false false) 10.
Definition dragon : SignDef :=
  two_hand_sign "Dragon" "Pouces et auriculaires leves (rock)"
    (fingers true false false false true) (fingers true false false false true) 10.
Definition ox : SignDef :=
  two_hand_sign "Ox" "Pouces leves des deux mains"
    (fingers true false false false false) (fingers true false false false false) 10.

(** The catalog, in the insertion order of the dict. *)
Definition GESTURE_DEFINITIONS : list (string * SignDef) :=
  [ ("tiger", tiger); ("horse", horse); ("monkey", monkey); ("dog", dog);
    ("snake", snake); ("dragon", dragon); ("ox", ox) ].

Record GestureResult : Type := {
  sign_name : string;
  confidence : float;
  timestamp : Z;
  finger_states : gmap string bool;
  is_confirmed : bool
}.

(** The attributes of a [GestureRecognizer] instance. *)
Record GestureRecognizer : Type := {
  confidence_threshold : float;
  hold_time : Z;
  cooldown : Z;
  current_gesture : option GestureResult;
  gesture_start_time : option Z;
  last_confirmed_time : Z;
  last_landmarks : option (list landmark);
  hands_distance_threshold : Z;
  single_hand_min_width : Z
}.

Definition __init__ (confidence_threshold : float) (hold_time cooldown : Z)
  : GestureRecognizer :=
  {| confidence_threshold := confidence_threshold;
     hold_time := hold_time;
     cooldown := cooldown;
     current_gesture := None;
     gesture_start_time := None;
     last_confirmed_time := 0;
     last_landmarks := None;
     hands_distance_threshold := 350;
     single_hand_min_width := 150 |}.

(** [self.current_gesture = g; self.gesture_start_time = t]. *)
Definition set_hold (self : GestureRecognizer)
    (g : option GestureResult) (t : option Z) : GestureRecognizer :=
  {| confidence_threshold := confidence_threshold self;
     hold_time := hold_time self;
     cooldown := cooldown self;
     current_gesture := g;
     gesture_start_time := t;
     last_confirmed_time := last_confirmed_time self;
     last_landmarks := last_landmarks self;
     hands_distance_threshold := hands_distance_threshold self;
     single_hand_min_width := single_hand_min_width self |}.

(** [self.last_confirmed_time = t]. *)
Definition set_last_confirmed_time (self : GestureRecognizer) (t : Z)
  : GestureRecognizer :=
  {| confidence_threshold := confidence_threshold self;
     hold_time := hold_time self;
     cooldown := cooldown self;
     current_gesture := current_gesture self;
     gesture_start_time := gesture_start_time self;
     last_confirmed_time := t;
     last_landmarks := last_landmarks self;
     hands_distance_threshold := hands_distance_threshold self;
     single_hand_min_width := single_hand_min_width self |}.

(** [result.is_confirmed = True]. *)
Definition confirm (r : GestureResult) : GestureResult :=
  {| sign_name := sign_name r; confidence := confidence r;
     timestamp := timestamp r; finger_states := finger_states r;
     is_confirmed := true |}.

Definition reset (self : GestureRecognizer) : GestureRecognizer :=
  set_hold self None None.

(** *** [_calc_two_hand_confidence] *)

Definition finger_names : list string :=
  ["thumb"; "index"; "middle"; "ring"; "pinky"].

(** One pass of the counting loop: the pair is
    [(left_matches, right_matches)]. *)
Definition count_step (left_states right_states left_expected right_expected : gmap string bool)
    (acc : Z * Z) (fname : string) : Z * Z :=
  let left_matches :=
    match left_expected !! fname with
    | Some e => if eqb (get left_states fname false) e then (acc.1 + 1)%Z else acc.1
    | None => acc.1
    end in
  let right_matches :=
    match right_expected !! fname with
    | Some e => if eqb (get right_states fname false) e then (acc.2 + 1)%Z else acc.2
    | None => acc.2
    end in
  (left_matches, right_matches).

(** [(left_matches, right_matches)] when the loop over [finger_names]
    ends. *)
Definition match_counts (left_states right_states : gmap string bool)
    (sign_def : SignDef) : Z * Z :=
  let left_expected := default ∅ (left_hand sign_def) in
  let right_expected := default ∅ (right_hand sign_def) in
  foldl (count_step left_states right_states left_expected right_expected)
        (0%Z, 0%Z) finger_names.

(** The part of [_calc_two_hand_confidence] after the loop.
    [left_given] and [right_given] are the truth values of
    [left_expected] and [right_expected].  The [return 0] of the last
    branch is the integer zero, which equals the float zero. *)
Definition score (left_given right_given : bool) (left_matches right_matches : Z)
    (joined_mode : bool) : float :=
  let left_score :=
    if left_given then PrimFloat.div (float_of_int left_matches) 5%float
    else 1.0%float in
  let right_score :=
    if right_given then PrimFloat.div (float_of_int right_matches) 5%float
    else 1.0%float in
  let total_score := PrimFloat.div (PrimFloat.add left_score right_score) 2%float in
  let min_matches : Z := (if joined_mode then 2 else 3)%Z in
  if (left_matches =? 5)%Z && (right_matches =? 5)%Z then
    min 1.0%float 1.0%float
  else if (4 <=? left_matches)%Z && (4 <=? right_matches)%Z then
    min (max total_score 0.85%float) 1.0%float
  else if (3 <=? left_matches)%Z && (3 <=? right_matches)%Z then
    min (max total_score 0.70%float) 1.0%float
  else if (min_matches <=? left_matches)%Z && (min_matches <=? right_matches)%Z then
    min (max total_score 0.60%float) 1.0%float
  else if (left_matches <? min_matches)%Z || (right_matches <? min_matches)%Z then
    0%float
  else
    min total_score 1.0%float.

Definition _calc_two_hand_confidence (left_states right_states : gmap string bool)
    (sign_def : SignDef) (joined_mode : bool) : float :=
  let left_expected := default ∅ (left_hand sign_def) in
  let right_expected := default ∅ (right_hand sign_def) in
  let '(left_matches, right_matches) := match_counts left_states right_states sign_def in
  score (truthy_dict left_expected) (truthy_dict right_expected)
        left_matches right_matches joined_mode.

(** *** [_get_center] *)

Definition _get_center (lms : list landmark) : result (float * float) :=
  x ← truediv (foldl Z.add 0%Z ((fun lm : landmark => lm.1.1) <$> lms))
              (Z.of_nat (length lms));
  y ← truediv (foldl Z.add 0%Z ((fun lm : landmark => lm.1.2) <$> lms))
              (Z.of_nat (length lms));
  Ok (x, y).

(** *** [_find_best_gesture] *)

(** An entry [(sign_name, confidence, priority)] of [scores]. *)
Definition score_entry : Type := string * float * Z.

(** The loop filling [scores], over any catalog in dict order. *)
Definition collect_scores (defs : list (string * SignDef))
    (left_states right_states : gmap string bool) (joined_mode : bool)
  : list score_entry :=
  foldl (fun scores (item : string * SignDef) =>
           let confidence :=
             _calc_two_hand_confidence left_states right_states item.2 joined_mode in
           if PrimFloat.ltb 0%float confidence
           then scores ++ [(item.1, confidence, default 5%Z (priority item.2))]
           else scores)
        [] defs.

(** Order on the sort keys [(x[1], x[2])]: tuples compare by their first
    differing component. *)
Definition key_lt (a b : score_entry) : bool :=
  if PrimFloat.eqb a.1.2 b.1.2 then (a.2 <? b.2)%Z
  else PrimFloat.ltb a.1.2 b.1.2.

(** [scores.sort(key=..., reverse=True)]: a stable sort, entries with
    equal keys keep their order. *)
Fixpoint insert_desc (x : score_entry) (l : list score_entry) : list score_entry :=
  match l with
  | [] => [x]
  | y :: l' => if key_lt x y then y :: insert_desc x l' else x :: l
  end.

Definition sort_desc (l : list score_entry) : list score_entry :=
  foldr insert_desc [] l.

(** [{**left_states, **{f"right_{k}": v for k, v in right_states.items()}}] *)
Definition combine_states (left_states right_states : gmap string bool)
  : gmap string bool :=
  list_to_map ((fun kv : string * bool => (String.append "right_" kv.1, kv.2))
                 <$> map_to_list right_states)
  ∪ left_states.

Definition _find_best_gesture (self : GestureRecognizer)
    (left_states right_states : gmap string bool)
    (current_time : Z) (joined_mode : bool)
  : result (GestureRecognizer * option GestureResult) :=
  let scores :=
    sort_desc (collect_scores GESTURE_DEFINITIONS left_states right_states joined_mode) in
  let threshold :=
    PrimFloat.sub (confidence_threshold self)
                  (if joined_mode then 0.05%float else 0%float) in
  let no_match := Ok (set_hold self None None, None) in
  match scores with
  | (best_match, best_confidence, _) :: _ =>
      if PrimFloat.leb threshold best_confidence then
        let combined_states := combine_states left_states right_states in
        let result :=
          {| sign_name := best_match;
             confidence := best_confidence;
             timestamp := current_time;
             finger_states := combined_states;
             is_confirmed := false |} in
        let new_hold :=
          Ok (set_hold self (Some result) (Some current_time), Some result) in
        match current_gesture self with
        | Some cur =>
            if String.eqb (sign_name cur) best_match then
              match gesture_start_time self with
              | None => Raise TypeError
              | Some start =>
                  let hold_duration := (current_time - start)%Z in
                  if (hold_time self <=? hold_duration)%Z then
                    if (cooldown self <=? current_time - last_confirmed_time self)%Z then
                      Ok (set_last_confirmed_time self current_time,
                          Some (confirm result))
                    else Ok (self, Some result)
                  else Ok (self, Some result)
              end
            else new_hold
        | None => new_hold
        end
      else no_match
  | [] => no_match
  end.

(** *** The entry point and its two modes *)

(** The role assignment of [_recognize_two_separate_hands]: the pair is
    [(left_hand, right_hand)]. *)
Definition assign_roles (hand1 hand2 : HandLandmarks) : HandLandmarks * HandLandmarks :=
  if String.eqb (handedness hand1) "Left" then (hand2, hand1) else (hand1, hand2).

Definition _recognize_two_separate_hands (self : GestureRecognizer)
    (hands : list HandLandmarks) (current_time : Z)
  : result (GestureRecognizer * option GestureResult) :=
  hand1 ← getitem hands 0;
  hand2 ← getitem hands 1;
  let '(left_hand, right_hand) := assign_roles hand1 hand2 in
  center1 ← _get_center (landmarks left_hand);
  center2 ← _get_center (landmarks right_hand);
  let dx := PrimFloat.sub center1.1 center2.1 in
  let dy := PrimFloat.sub center1.2 center2.2 in
  let distance :=
    PrimFloat.sqrt (PrimFloat.add (PrimFloat.mul dx dx) (PrimFloat.mul dy dy)) in
  if PrimFloat.ltb (float_of_int (hands_distance_threshold self)) distance then
    Ok (set_hold self None None, None)
  else
    left_states ← get_finger_states left_hand;
    right_states ← get_finger_states right_hand;
    _find_best_gesture self left_states right_states current_time false.

(** [sum(1 for v in finger_states.values() if v)] *)
Definition fingers_up (finger_states : gmap string bool) : Z :=
  Z.of_nat (length (filter (fun kv : string * bool => Is_true kv.2)
                           (map_to_list finger_states))).

Definition _recognize_joined_hands (self : GestureRecognizer)
    (hand : HandLandmarks) (current_time : Z)
  : result (GestureRecognizer * option GestureResult) :=
  let '(x, y, w, h) := bounding_box hand in
  if (single_hand_min_width self <=? w)%Z then
    finger_states ← get_finger_states hand;
    _find_best_gesture self finger_states finger_states current_time true
  else
    finger_states ← get_finger_states hand;
    if (3 <=? fingers_up finger_states)%Z && (120 <=? w)%Z then
      _find_best_gesture self finger_states finger_states current_time true
    else
      Ok (set_hold self None None, None).

(** [recognize_two_hands]; [current_time] is the reading of
    [time.time()] taken on entry. *)
Definition recognize_two_hands (self : GestureRecognizer)
    (hands : list HandLandmarks) (current_time : Z)
  : result (GestureRecognizer * option GestureResult) :=
  if (length hands =? 0)%nat then
    Ok (set_hold self None None, None)
  else if (2 <=? length hands)%nat then
    _recognize_two_separate_hands self hands current_time
  else if (length hands =? 1)%nat then
    hand ← getitem hands 0;
    _recognize_joined_hands self hand current_time
  else
    Ok (self, None).

(** *** [GestureStabilizer] *)

Record GestureStabilizer : Type := {
  buffer_size : Z;
  gesture_buffer : list (option string);
  confidence_buffer : list float
}.

Definition new_stabilizer (buffer_size : Z) : GestureStabilizer :=
  {| buffer_size := buffer_size; gesture_buffer := []; confidence_buffer := [] |}.

(** [add_gesture]: append to both buffers, then [pop(0)] from both when
    the gesture buffer has outgrown [buffer_size]. *)
Definition add_gesture (self : GestureStabilizer)
    (gesture_name : option string) (confidence : float) : GestureStabilizer :=
  let gb := gesture_buffer self ++ [gesture_name] in
  let cb := confidence_buffer self ++ [confidence] in
  if (buffer_size self <? Z.of_nat (length gb))%Z then
    {| buffer_size := buffer_size self;
       gesture_buffer := tail gb;
       confidence_buffer := tail cb |}
  else
    {| buffer_size := buffer_size self;
       gesture_buffer := gb;
       confidence_buffer := cb |}.

(** [weighted_counts] is a dict whose iteration order decides ties in
    [max]: it is kept as an association list in insertion order. *)
Definition odict : Type := list (string * float).

Fixpoint odict_get (d : odict) (k : string) (dflt : float) : float :=
  match d with
  | [] => dflt
  | (k', v) :: d' => if String.eqb k' k then v else odict_get d' k dflt
  end.

(** [d[k] = v]: an existing key keeps its place, a new key goes last. *)
Fixpoint odict_set (d : odict) (k : string) (v : float) : odict :=
  match d with
  | [] => [(k, v)]
  | (k', v') :: d' =>
      if String.eqb k' k then (k', v) :: d' else (k', v') :: odict_set d' k v
  end.

(** One pass of the voting loop over [enumerate(self.gesture_buffer)]. *)
Definition vote_step (confidence_buffer : list float)
    (weighted_counts : odict) (entry : nat * option string) : odict :=
  match entry.2 with
  | Some gesture =>
      if truthy_str gesture then
        let confidence := default 0.5%float (confidence_buffer !! entry.1) in
        odict_set weighted_counts gesture
                  (PrimFloat.add (odict_get weighted_counts gesture 0%float) confidence)
      else weighted_counts
  | None => weighted_counts
  end.

Definition weighted_votes (self : GestureStabilizer) : odict :=
  foldl (vote_step (confidence_buffer self)) []
        (imap (fun i g => (i, g)) (gesture_buffer self)).

(** [max(d, key=d.get)] on a non-empty dict, [best] being the entry kept
    so far: a later key wins only with a strictly larger value. *)
Fixpoint max_by_value (best : string * float) (rest : odict) : string :=
  match rest with
  | [] => best.1
  | kv :: rest' =>
      max_by_value (if PrimFloat.ltb best.2 kv.2 then kv else best) rest'
  end.

(** The weighted-vote winner, when any gesture got a vote. *)
Definition best_gesture (self : GestureStabilizer) : option string :=
  match weighted_votes self with
  | [] => None
  | kv :: rest => Some (max_by_value kv rest)
  end.

(** [sum(1 for g in self.gesture_buffer if g == best_gesture)] *)
Definition occurrences (self : GestureStabilizer) (g : string) : Z :=
  Z.of_nat (length (filter (fun x : option string => x = Some g) (gesture_buffer self))).

(** [count >= self.buffer_size * 0.6] *)
Definition accepts (buffer_size count : Z) : bool :=
  PrimFloat.leb (PrimFloat.mul (float_of_int buffer_size) 0.6%float)
                (float_of_int count).

Definition get_stable_gesture (self : GestureStabilizer) : option string :=
  match gesture_buffer self with
  | [] => None
  | _ :: _ =>
      match best_gesture self with
      | None => None
      | Some best =>
          if accepts (buffer_size self) (occurrences self best)
          then Some best else None
      end
  end.

Definition clear (self : GestureStabilizer) : GestureStabilizer :=
  {| buffer_size := buffer_size self; gesture_buffer := []; confidence_buffer := [] |}.

End gesture_recognizer.
Import gesture_recognizer.

(** * Properties *)

(** ** Confidence scoring *)

Section Scoring.

Implicit Types (left_states right_states : gmap string bool).
Implicit Types (sign_def : SignDef) (joined_mode : bool).

(** The gate of the specification: 2 in joined mode, 3 otherwise. *)
Definition min_required (joined_mode : bool) : Z :=
  if joined_mode then 2%Z else 3%Z.

Definition left_matches left_states right_states sign_def : Z :=
  (match_counts left_states right_states sign_def).1.

Definition right_matches left_states right_states sign_def : Z :=
  (match_counts left_states right_states sign_def).2.

Lemma calc_by_counts left_states right_states sign_def joined_mode :
  _calc_two_hand_confidence left_states right_states sign_def joined_mode =
  score (truthy_dict (default ∅ (left_hand sign_def)))
        (truthy_dict (default ∅ (right_hand sign_def)))
        (left_matches left_states right_states sign_def)
        (right_matches left_states right_states sign_def) joined_mode.
Proof.
  unfold _calc_two_hand_confidence, left_matches, right_matches.
  by destruct (match_counts _ _ _).
Qed.

(** Each pass of the loop adds at most one to each counter. *)
Lemma count_step_bounds ls rs le re acc fname :
  (acc.1 <= (count_step ls rs le re acc fname).1 <= acc.1 + 1)%Z ∧
  (acc.2 <= (count_step ls rs le re acc fname).2 <= acc.2 + 1)%Z.
Proof.
  unfold count_step; simpl.
  destruct (le !! fname) as [e1|], (re !! fname) as [e2|];
    repeat match goal with |- context [if ?b then _ else _] => destruct b end;
    lia.
Qed.

Lemma foldl_count_bounds ls rs le re names acc :
  let out := foldl (count_step ls rs le re) acc names in
  (acc.1 <= out.1 <= acc.1 + Z.of_nat (length names))%Z ∧
  (acc.2 <= out.2 <= acc.2 + Z.of_nat (length names))%Z.
Proof.
  revert acc; induction names as [|n names IH]; intros acc.
  - cbn. lia.
  - cbn [foldl length]. rewrite Nat2Z.inj_succ.
    specialize (IH (count_step ls rs le re acc n)); cbv zeta in IH.
    pose proof (count_step_bounds ls rs le re acc n). lia.
Qed.

Lemma match_counts_range left_states right_states sign_def :
  (0 <= left_matches left_states right_states sign_def <= 5)%Z ∧
  (0 <= right_matches left_states right_states sign_def <= 5)%Z.
Proof.
  unfold left_matches, right_matches, match_counts.
  pose proof (foldl_count_bounds left_states right_states
                (default ∅ (left_hand sign_def)) (default ∅ (right_hand sign_def))
                finger_names (0%Z, 0%Z)) as H.
  cbv zeta in H. change (Z.of_nat (length finger_names)) with 5%Z in H.
  cbn [fst snd] in H. lia.
Qed.

(** A pattern that names no finger scores no match. *)
Lemma left_matches_given left_states right_states sign_def :
  (0 < left_matches left_states right_states sign_def)%Z →
  truthy_dict (default ∅ (left_hand sign_def)) = true.
Proof.
  unfold truthy_dict. case_bool_decide as He; [|done].
  unfold left_matches, match_counts. rewrite He. cbn.
  rewrite !lookup_empty. lia.
Qed.

Lemma right_matches_given left_states right_states sign_def :
  (0 < right_matches left_states right_states sign_def)%Z →
  truthy_dict (default ∅ (right_hand sign_def)) = true.
Proof.
  unfold truthy_dict. case_bool_decide as He; [|done].
  unfold right_matches, match_counts. rewrite He. cbn.
  rewrite !lookup_empty. lia.
Qed.

Ltac count_cases l :=
  let H := fresh in
  assert (l = 0 ∨ l = 1 ∨ l = 2 ∨ l = 3 ∨ l = 4 ∨ l = 5)%Z as H by lia;
  destruct H as [-> | [-> | [-> | [-> | [-> | ->]]]]].

Lemma score_gate lg rg l r joined_mode :
  (l < min_required joined_mode ∨ r < min_required joined_mode)%Z →
  score lg rg l r joined_mode = 0%float.
Proof.
  unfold score, min_required. intros H.
  destruct joined_mode;
    repeat match goal with
           | |- context [(?a =? ?b)%Z] => destruct (Z.eqb_spec a b)
           | |- context [(?a <=? ?b)%Z] => destruct (Z.leb_spec a b)
           | |- context [(?a <? ?b)%Z] => destruct (Z.ltb_spec a b)
           end; simpl; try reflexivity; lia.
Qed.

(** One more matching finger on either hand: the score does not drop.
    Both comparisons are stated, [<=] holding and [<] reversed failing. *)
Lemma score_mono_left lg rg l r joined_mode :
  (0 <= l)%Z → (l + 1 <= 5)%Z → (0 <= r <= 5)%Z →
  PrimFloat.leb (score lg rg l r joined_mode) (score lg rg (l + 1) r joined_mode) = true ∧
  PrimFloat.ltb (score lg rg (l + 1) r joined_mode) (score lg rg l r joined_mode) = false.
Proof.
  intros. count_cases l; try lia; count_cases r; try lia;
    destruct lg, rg, joined_mode; vm_compute; split; reflexivity.
Qed.

Lemma score_mono_right lg rg l r joined_mode :
  (0 <= r)%Z → (r + 1 <= 5)%Z → (0 <= l <= 5)%Z →
  PrimFloat.leb (score lg rg l r joined_mode) (score lg rg l (r + 1) joined_mode) = true ∧
  PrimFloat.ltb (score lg rg l (r + 1) joined_mode) (score lg rg l r joined_mode) = false.
Proof.
  intros. count_cases l; try lia; count_cases r; try lia;
    destruct lg, rg, joined_mode; vm_compute; split; reflexivity.
Qed.

(** Finger states used to exercise the scoring theorems: an open hand, the
    tiger pose, and hands agreeing with the tiger pattern on three fingers
    (index, middle, pinky) and on four (all but the ring finger). *)
Definition open_hand : gmap string bool := fingers true true true true true.
Definition tiger_pose : gmap string bool := fingers false true true false false.
Definition three_of_tiger : gmap string bool := fingers true true true true false.
Definition four_of_tiger : gmap string bool := fingers false true true true false.

(** C1 (gate correctness).  With [min_required] = 2 in joined mode and 3
    otherwise, a template for which either hand matches fewer than
    [min_required] fingers gets confidence exactly 0, whatever the other
    hand matches. *)
Theorem confidence_zero_below_min_required
    left_states right_states sign_def joined_mode :
  (left_matches left_states right_states sign_def < min_required joined_mode
   ∨ right_matches left_states right_states sign_def < min_required joined_mode)%Z →
  _calc_two_hand_confidence left_states right_states sign_def joined_mode = 0%float.
Proof.
  intros H. rewrite calc_by_counts. by apply score_gate.
Qed.

(** The open left hand agrees with the tiger pattern on two fingers only:
    a perfect right hand does not rescue the template. *)
Lemma confidence_zero_below_min_required_witness :
  (left_matches open_hand tiger_pose tiger < min_required false
   ∨ right_matches open_hand tiger_pose tiger < min_required false)%Z
  ∧ _calc_two_hand_confidence open_hand tiger_pose tiger false = 0%float.
Proof.
  split.
  - left. vm_compute. reflexivity.
  - apply (confidence_zero_below_min_required open_hand tiger_pose tiger false).
    left. vm_compute. reflexivity.
Defined.

(** C2 (threshold monotonicity).  For a fixed template and a fixed
    [joined_mode], observations that match one more finger on one hand and
    as many on the other never get a strictly smaller confidence. *)
Theorem confidence_monotone_in_matches
    left_states right_states left_states' right_states' sign_def joined_mode :
  (left_matches left_states' right_states' sign_def
     = left_matches left_states right_states sign_def + 1
   ∧ right_matches left_states' right_states' sign_def
     = right_matches left_states right_states sign_def)%Z
  ∨ (left_matches left_states' right_states' sign_def
       = left_matches left_states right_states sign_def
     ∧ right_matches left_states' right_states' sign_def
       = right_matches left_states right_states sign_def + 1)%Z →
  PrimFloat.ltb
    (_calc_two_hand_confidence left_states' right_states' sign_def joined_mode)
    (_calc_two_hand_confidence left_states right_states sign_def joined_mode) = false
  ∧ PrimFloat.leb
      (_calc_two_hand_confidence left_states right_states sign_def joined_mode)
      (_calc_two_hand_confidence left_states' right_states' sign_def joined_mode) = true.
Proof.
  intros H. rewrite !calc_by_counts.
  pose proof (match_counts_range left_states right_states sign_def) as [Hl Hr].
  pose proof (match_counts_range left_states' right_states' sign_def) as [Hl' Hr'].
  destruct H as [[El Er] | [El Er]]; rewrite El, Er in *.
  - split; apply score_mono_left; lia.
  - split; apply score_mono_right; lia.
Qed.

(** From three matching fingers on the left hand to four, the right hand
    perfect throughout: 0.8 becomes 0.9. *)
Lemma confidence_monotone_in_matches_witness :
  ((left_matches four_of_tiger tiger_pose tiger
      = left_matches three_of_tiger tiger_pose tiger + 1
    ∧ right_matches four_of_tiger tiger_pose tiger
      = right_matches three_of_tiger tiger_pose tiger)%Z
   ∨ (left_matches four_of_tiger tiger_pose tiger
        = left_matches three_of_tiger tiger_pose tiger
      ∧ right_matches four_of_tiger tiger_pose tiger
        = right_matches three_of_tiger tiger_pose tiger + 1)%Z)
  ∧ (PrimFloat.ltb
       (_calc_two_hand_confidence four_of_tiger tiger_pose tiger false)
       (_calc_two_hand_confidence three_of_tiger tiger_pose tiger false) = false
     ∧ PrimFloat.leb
         (_calc_two_hand_confidence three_of_tiger tiger_pose tiger false)
         (_calc_two_hand_confidence four_of_tiger tiger_pose tiger false) = true).
Proof.
  split.
  - left. split; vm_compute; reflexivity.
  - apply (confidence_monotone_in_matches
             three_of_tiger tiger_pose four_of_tiger tiger_pose tiger false).
    left. split; vm_compute; reflexivity.
Defined.

(** C3, as stated, fails: no observation that matches a template on three
    fingers of the left hand and five of the right gets the flat 0.70. *)
Lemma three_and_five_never_flat_floor :
  ¬ ∃ left_states right_states sign_def joined_mode,
      left_matches left_states right_states sign_def = 3%Z
      ∧ right_matches left_states right_states sign_def = 5%Z
      ∧ _calc_two_hand_confidence left_states right_states sign_def joined_mode
        = 0.70%float.
Proof.
  intros (ls & rs & sd & j & Hl & Hr & Hc).
  rewrite calc_by_counts, Hl, Hr in Hc.
  rewrite (left_matches_given ls rs sd), (right_matches_given ls rs sd) in Hc by lia.
  destruct j; vm_compute in Hc; discriminate.
Qed.

(** C3 (amended).  The floors only raise the score: with three matching
    fingers on the left hand and five on the right the confidence is the
    average 0.8 of 3/5 and 5/5, strictly above the 0.70 that three and
    three get. *)
Theorem three_and_five_keeps_average
    left_states right_states sign_def joined_mode
    left_states' right_states' sign_def' joined_mode' :
  left_matches left_states right_states sign_def = 3%Z →
  right_matches left_states right_states sign_def = 5%Z →
  left_matches left_states' right_states' sign_def' = 3%Z →
  right_matches left_states' right_states' sign_def' = 3%Z →
  _calc_two_hand_confidence left_states right_states sign_def joined_mode = 0.8%float
  ∧ _calc_two_hand_confidence left_states' right_states' sign_def' joined_mode' = 0.70%float
  ∧ PrimFloat.ltb 0.70%float 0.8%float = true.
Proof.
  intros Hl Hr Hl' Hr'. rewrite !calc_by_counts, Hl, Hr, Hl', Hr'.
  rewrite (left_matches_given left_states right_states sign_def),
    (right_matches_given left_states right_states sign_def),
    (left_matches_given left_states' right_states' sign_def'),
    (right_matches_given left_states' right_states' sign_def') by lia.
  destruct joined_mode, joined_mode'; vm_compute; auto.
Qed.

Lemma three_and_five_keeps_average_witness :
  left_matches three_of_tiger tiger_pose tiger = 3%Z
  ∧ right_matches three_of_tiger tiger_pose tiger = 5%Z
  ∧ left_matches three_of_tiger three_of_tiger tiger = 3%Z
  ∧ right_matches three_of_tiger three_of_tiger tiger = 3%Z
  ∧ (_calc_two_hand_confidence three_of_tiger tiger_pose tiger false = 0.8%float
     ∧ _calc_two_hand_confidence three_of_tiger three_of_tiger tiger false = 0.70%float
     ∧ PrimFloat.ltb 0.70%float 0.8%float = true).
Proof.
  do 4 (split; [vm_compute; reflexivity|]).
  apply (three_and_five_keeps_average
           three_of_tiger tiger_pose tiger false
           three_of_tiger three_of_tiger tiger false);
    vm_compute; reflexivity.
Defined.

End Scoring.

(** ** The stabilizer *)

Section Stabilizer.

Implicit Types (self : GestureStabilizer) (g : string).

(** [ceil(0.6 * n)] on integers. *)
Definition ceil_three_fifths (n : Z) : Z := ((3 * n + 4) / 5)%Z.

(** The gate [count >= n * 0.6] is closed for every count below
    [ceil(0.6 * n)]: a finite check on the binary64 product. *)
Definition gate_closed_below (n : Z) : bool :=
  forallb (fun c => negb (accepts n c)) (seqZ 0 (ceil_three_fifths n)).

(** [n] calls [add_gesture(g, c)] in a row. *)
Fixpoint feed (self : GestureStabilizer) (gesture_name : option string)
    (c : float) (n : nat) : GestureStabilizer :=
  match n with
  | O => self
  | S n' => feed (add_gesture self gesture_name c) gesture_name c n'
  end.

(** Six [add_gesture("tiger")], which leave the confidence at its default
    0, between four [add_gesture("horse", 0.9)], in a window of ten. *)
Definition six_tigers_four_horses : GestureStabilizer :=
  feed (feed (feed (feed (new_stabilizer 10)
    (Some "tiger") 0%float 3) (Some "horse") 0.9%float 2)
    (Some "tiger") 0%float 3) (Some "horse") 0.9%float 2.

(** The 10-frame window of scenario E of the specification. *)
Definition scenario_E : GestureStabilizer :=
  foldl (fun s (e : option string * float) => add_gesture s e.1 e.2)
    (new_stabilizer 10)
    [ (Some "tiger", 0.9%float); (Some "tiger", 0.9%float); (None, 0%float);
      (Some "horse", 0.95%float); (Some "tiger", 0.8%float);
      (Some "tiger", 0.85%float); (Some "tiger", 0.8%float); (None, 0%float);
      (Some "tiger", 0.8%float); (Some "tiger", 0.8%float) ].

(** A window of ten holding six tigers at 0.8 and four misses. *)
Definition six_tigers_four_misses : GestureStabilizer :=
  feed (feed (new_stabilizer 10) (Some "tiger") 0.8%float 6) None 0%float 4.

(** A window of ten holding five tigers and five horses. *)
Definition five_tigers_five_horses : GestureStabilizer :=
  feed (feed (new_stabilizer 10) (Some "tiger") 0.9%float 5)
       (Some "horse") 0.8%float 5.

(** A window of capacity ten that has seen five tigers only. *)
Definition five_tigers_so_far : GestureStabilizer :=
  feed (new_stabilizer 10) (Some "tiger") 1.0%float 5.

Lemma occurrences_range self g :
  (0 <= occurrences self g <= Z.of_nat (length (gesture_buffer self)))%Z.
Proof.
  unfold occurrences.
  pose proof (length_filter (fun x : option string => x = Some g) (gesture_buffer self)).
  lia.
Qed.

(** Whatever [get_stable_gesture] returns is the vote winner and has
    passed the gate. *)
Lemma get_stable_gesture_Some self g :
  get_stable_gesture self = Some g →
  best_gesture self = Some g ∧ accepts (buffer_size self) (occurrences self g) = true.
Proof.
  unfold get_stable_gesture.
  destruct (gesture_buffer self) as [|x l] eqn:E; [done|].
  destruct (best_gesture self) as [b|]; [|done].
  destruct (accepts _ _) eqn:Ea; [|done].
  by intros [= ->].
Qed.

Lemma gate_closed_below_spec n c :
  gate_closed_below n = true →
  (0 <= c < ceil_three_fifths n)%Z → accepts n c = false.
Proof.
  unfold gate_closed_below. rewrite forallb_forall. intros H Hc.
  apply negb_true_iff, H, list_elem_of_In, elem_of_seqZ. lia.
Qed.

Lemma gate_closed_upto_1024 :
  forallb gate_closed_below (seqZ 0 1025) = true.
Proof. vm_compute. reflexivity. Qed.

Lemma accepts_below_ceil n c :
  (n <= 1024)%Z → (0 <= c < ceil_three_fifths n)%Z → accepts n c = false.
Proof.
  intros Hn Hc. apply gate_closed_below_spec; [|done].
  pose proof gate_closed_upto_1024 as H. rewrite forallb_forall in H.
  apply H, list_elem_of_In, elem_of_seqZ.
  unfold ceil_three_fifths in Hc. Z.to_euclidean_division_equations. lia.
Qed.

End Stabilizer.

(** ** The acceptance boundary *)

Section Boundary.

Implicit Types (self : GestureStabilizer) (g : string).

(** C6, as stated, fails: a gesture can fill six of the ten slots and
    still not be returned, when another gesture has the larger summed
    confidence. *)
Lemma six_of_ten_not_always_stable :
  buffer_size six_tigers_four_horses = 10%Z
  ∧ length (gesture_buffer six_tigers_four_horses) = 10%nat
  ∧ occurrences six_tigers_four_horses "tiger" = 6%Z
  ∧ get_stable_gesture six_tigers_four_horses ≠ Some "tiger".
Proof. repeat split; vm_compute; congruence. Qed.

(** C6 (amended).  In a window of size ten, the winner of the weighted
    vote is returned when it fills exactly six slots, and no gesture that
    fills only five slots is returned. *)
Theorem stable_boundary_six_of_ten self g :
  buffer_size self = 10%Z →
  length (gesture_buffer self) = 10%nat →
  (occurrences self g = 6%Z → best_gesture self = Some g →
   get_stable_gesture self = Some g)
  ∧ (occurrences self g = 5%Z → get_stable_gesture self ≠ Some g).
Proof.
  intros Hsize Hlen. split.
  - intros Hocc Hbest. unfold get_stable_gesture.
    destruct (gesture_buffer self) eqn:E; [done|].
    by rewrite Hbest, Hsize, Hocc.
  - intros Hocc Hst. apply get_stable_gesture_Some in Hst as [_ Hacc].
    rewrite Hsize, Hocc in Hacc. vm_compute in Hacc. discriminate.
Qed.

Lemma stable_boundary_six_of_ten_witness :
  buffer_size six_tigers_four_misses = 10%Z
  ∧ length (gesture_buffer six_tigers_four_misses) = 10%nat
  ∧ occurrences six_tigers_four_misses "tiger" = 6%Z
  ∧ best_gesture six_tigers_four_misses = Some "tiger"
  ∧ get_stable_gesture six_tigers_four_misses = Some "tiger"
  ∧ buffer_size five_tigers_five_horses = 10%Z
  ∧ length (gesture_buffer five_tigers_five_horses) = 10%nat
  ∧ occurrences five_tigers_five_horses "tiger" = 5%Z
  ∧ get_stable_gesture five_tigers_five_horses ≠ Some "tiger".
Proof.
  do 4 (split; [vm_compute; reflexivity|]).
  split.
  { apply (stable_boundary_six_of_ten six_tigers_four_misses "tiger");
      vm_compute; reflexivity. }
  do 3 (split; [vm_compute; reflexivity|]).
  apply (stable_boundary_six_of_ten five_tigers_five_horses "tiger");
    vm_compute; reflexivity.
Defined.

(** C10.  The gate measures the count against the capacity, not against
    the number of samples buffered: a window holding fewer than
    [ceil(0.6 * buffer_size)] samples yields no stable gesture, whatever
    the samples are.  The binary64 product [buffer_size * 0.6] was
    evaluated for every capacity up to 1024. *)
Theorem partial_window_never_stable self :
  (buffer_size self <= 1024)%Z →
  (Z.of_nat (length (gesture_buffer self)) < ceil_three_fifths (buffer_size self))%Z →
  get_stable_gesture self = None.
Proof.
  intros Hcap Hlen.
  destruct (get_stable_gesture self) as [g|] eqn:E; [|done].
  apply get_stable_gesture_Some in E as [_ Hacc].
  pose proof (occurrences_range self g).
  rewrite accepts_below_ceil in Hacc; [done|done|lia].
Qed.

(** Five tigers in a row at confidence 1.0, capacity ten: nothing is
    stable yet. *)
Lemma partial_window_never_stable_witness :
  (buffer_size five_tigers_so_far <= 1024)%Z
  ∧ (Z.of_nat (length (gesture_buffer five_tigers_so_far))
     < ceil_three_fifths (buffer_size five_tigers_so_far))%Z
  ∧ get_stable_gesture five_tigers_so_far = None.
Proof.
  split; [vm_compute; discriminate|].
  split; [vm_compute; reflexivity|].
  apply (partial_window_never_stable five_tigers_so_far);
    vm_compute; [discriminate | reflexivity].
Defined.

End Boundary.

(** ** Finger-state extraction *)

Section Extraction.

Implicit Types (hand : HandLandmarks) (lms : list landmark).

(** The landmark at index [i], for lists known to be long enough. *)
Definition landmark_at lms (i : nat) : landmark :=
  match lms !! i with
  | Some p => p
  | None => (0%Z, 0%Z, 0%float)
  end.

(** The adaptive margin: 5% of the wrist to middle-fingertip distance. *)
Definition margin lms : float :=
  PrimFloat.mul
    (PrimFloat.sqrt
       (float_of_int (((landmark_at lms WRIST).1.1 - (landmark_at lms MIDDLE_TIP).1.1) ^ 2
                      + ((landmark_at lms WRIST).1.2 - (landmark_at lms MIDDLE_TIP).1.2) ^ 2)%Z))
    0.05%float.

(** The thumb tip lies left of the interphalangeal joint by more than the
    margin, respectively right of it. *)
Definition thumb_left_of_joint lms : bool :=
  below (landmark_at lms THUMB_TIP).1.1 (landmark_at lms THUMB_IP).1.1 (margin lms).

Definition thumb_right_of_joint lms : bool :=
  above (landmark_at lms THUMB_TIP).1.1 (landmark_at lms THUMB_IP).1.1 (margin lms).

(** A fingertip lies above its proximal joint by more than the margin. *)
Definition tip_above_pip lms (tip pip : nat) : bool :=
  below (landmark_at lms tip).1.2 (landmark_at lms pip).1.2 (margin lms).

(** A synthetic hand around column [x0]: wrist at the bottom, every joint
    on the column, raised fingertips 50 px above their joint and folded
    ones 30 px below, the thumb tip 30 px to the side given by [thumb]
    (negative: left) or on the column when [thumb] is 0. *)
Definition sample_landmark (x0 thumb : Z) (i m r p : bool) (k : nat) : landmark :=
  let tip (up : bool) : landmark := (x0, if up then 300 else 380, 0%float)%Z in
  if (k =? WRIST)%nat then (x0, 400%Z, 0%float)
  else if (k =? THUMB_TIP)%nat then ((x0 + thumb)%Z, 360%Z, 0%float)
  else if (k =? THUMB_IP)%nat then (x0, 360%Z, 0%float)
  else if (k =? INDEX_TIP)%nat then tip i
  else if (k =? MIDDLE_TIP)%nat then tip m
  else if (k =? RING_TIP)%nat then tip r
  else if (k =? PINKY_TIP)%nat then tip p
  else (x0, 350%Z, 0%float).

Definition sample_hand (label : string) (x0 thumb : Z) (i m r p : bool) (w : Z)
    (points : nat) : HandLandmarks :=
  {| landmarks := sample_landmark x0 thumb i m r p <$> seq 0 points;
     handedness := label;
     hand_detector.confidence := 0.9%float;
     bounding_box := ((x0 - 20)%Z, 280%Z, w, 160%Z) |}.

Lemma getitem_lookup {A} (l : list A) i x : l !! i = Some x → getitem l i = Ok x.
Proof. unfold getitem. by intros ->. Qed.

Lemma getitem_short {A} (l : list A) i : length l ≤ i → getitem l i = Raise IndexError.
Proof. unfold getitem. intros H. by rewrite (proj2 (lookup_ge_None l i) H). Qed.

Lemma getitem_at lms i :
  i < length lms → getitem lms i = Ok (landmark_at lms i).
Proof.
  intros H. unfold getitem, landmark_at.
  destruct (lookup_lt_is_Some_2 lms i H) as [x ->]. reflexivity.
Qed.

(** On 21 landmarks or more the extractor succeeds, with these values. *)
Lemma get_finger_states_ok hand :
  21 ≤ length (landmarks hand) →
  get_finger_states hand =
  Ok (<["thumb" := if String.eqb (handedness hand) "Right"
                   then thumb_left_of_joint (landmarks hand)
                   else thumb_right_of_joint (landmarks hand)]>
      (<["index" := tip_above_pip (landmarks hand) INDEX_TIP INDEX_PIP]>
       (<["middle" := tip_above_pip (landmarks hand) MIDDLE_TIP MIDDLE_PIP]>
        (<["ring" := tip_above_pip (landmarks hand) RING_TIP RING_PIP]>
         (<["pinky" := tip_above_pip (landmarks hand) PINKY_TIP PINKY_PIP]> ∅))))).
Proof.
  intros H. unfold get_finger_states, _get_hand_size.
  destruct (String.eqb (handedness hand) "Right");
    repeat (rewrite getitem_at
              by (unfold WRIST, THUMB_TIP, THUMB_IP, INDEX_TIP, INDEX_PIP, MIDDLE_TIP,
                  MIDDLE_PIP, RING_TIP, RING_PIP, PINKY_TIP, PINKY_PIP; lia);
            cbn [mbind result_bind]);
    reflexivity.
Qed.

(** On fewer than 21 landmarks the extractor raises [IndexError]. *)
Lemma get_finger_states_short hand :
  length (landmarks hand) < 21 →
  get_finger_states hand = Raise IndexError.
Proof.
  intros H. unfold get_finger_states, _get_hand_size.
  assert (getitem (landmarks hand) PINKY_TIP = Raise IndexError) as Hp
    by (apply getitem_short; unfold PINKY_TIP; lia).
  rewrite Hp. unfold getitem.
  repeat match goal with
         | |- context [landmarks hand !! ?i] => destruct (landmarks hand !! i)
         | |- context [if ?b then _ else _] => destruct b
         end; reflexivity.
Qed.

End Extraction.

(** ** Malformed hands and the thumb rule *)

Section Hands.

Implicit Types (hand : HandLandmarks) (self : GestureRecognizer).

(** A hand observation that lost its last landmark: 20 points, 160 px
    wide. *)
Definition short_hand : HandLandmarks :=
  sample_hand "Right" 300 0 true true false false 160 20.

(** Two hands 60 px apart.  [labelled_left] carries the raw label "Left",
    its thumb tip 30 px to the left of the joint; [labelled_right] carries
    "Right", its thumb tip 30 px to the right of the joint. *)
Definition labelled_left : HandLandmarks :=
  sample_hand "Left" 300 (-30) true true false false 100 21.
Definition labelled_right : HandLandmarks :=
  sample_hand "Right" 360 30 true true false false 100 21.

(** C5 is violated by the code.  On a hand with fewer than 21 landmarks
    [get_finger_states] raises [IndexError]; nothing between it and the
    caller of [recognize_two_hands] catches the exception, so a frame whose
    single hand is malformed is aborted instead of yielding "no
    candidate". *)
Theorem short_landmark_list_aborts_frame self hand current_time :
  length (landmarks hand) < 21 →
  get_finger_states hand = Raise IndexError
  ∧ recognize_two_hands self [hand] current_time = Raise IndexError.
Proof.
  intros H. split; [by apply get_finger_states_short|].
  unfold recognize_two_hands, _recognize_joined_hands. cbn.
  destruct (bounding_box hand) as [[[x y] w] h].
  rewrite get_finger_states_short by done.
  by destruct (single_hand_min_width self <=? w)%Z.
Qed.

Lemma short_landmark_list_aborts_frame_witness :
  length (landmarks short_hand) < 21
  ∧ get_finger_states short_hand = Raise IndexError
  ∧ recognize_two_hands (__init__ 0.8%float 4 5) [short_hand] 0 = Raise IndexError.
Proof.
  split; [vm_compute; lia|].
  apply (short_landmark_list_aborts_frame (__init__ 0.8%float 4 5) short_hand 0%Z).
  vm_compute; lia.
Defined.

(** C7, as stated, fails.  The hand labelled "Left" by the estimator gets
    the right role; its thumb tip is left of the joint by more than the
    margin, and yet its thumb is reported as not extended. *)
Lemma right_role_thumb_ignores_left_rule :
  (assign_roles labelled_left labelled_right).2 = labelled_left
  ∧ length (landmarks labelled_left) = 21
  ∧ thumb_left_of_joint (landmarks labelled_left) = true
  ∧ (fs ← get_finger_states labelled_left; Ok (fs !! "thumb")) = Ok (Some false).
Proof. repeat split; vm_compute; reflexivity. Qed.

(** C7 (amended).  On 21 landmarks the thumb is decided by a horizontal
    comparison of tip and interphalangeal joint whose direction follows the
    raw handedness label: "Right" asks for the tip left of the joint minus
    the 5% margin, any other label for the tip right of the joint plus the
    margin.  Roles invert the raw labels, so of two hands labelled "Left"
    and "Right" it is the left-role hand that is judged by tip-left-of-joint
    and the right-role hand by tip-right-of-joint. *)
Theorem thumb_rule_follows_raw_label hand1 hand2 :
  length (landmarks hand1) = 21 →
  length (landmarks hand2) = 21 →
  (handedness hand1 = "Left" ∧ handedness hand2 = "Right")
  ∨ (handedness hand1 = "Right" ∧ handedness hand2 = "Left") →
  ∃ left_hand right_hand left_states right_states,
    assign_roles hand1 hand2 = (left_hand, right_hand)
    ∧ handedness left_hand = "Right"
    ∧ handedness right_hand = "Left"
    ∧ get_finger_states left_hand = Ok left_states
    ∧ left_states !! "thumb" = Some (thumb_left_of_joint (landmarks left_hand))
    ∧ get_finger_states right_hand = Ok right_states
    ∧ right_states !! "thumb" = Some (thumb_right_of_joint (landmarks right_hand)).
Proof.
  intros H1 H2 Hlab. unfold assign_roles.
  destruct Hlab as [[E1 E2] | [E1 E2]]; rewrite E1; cbn [String.eqb Ascii.eqb Bool.eqb].
  - eexists hand2, hand1, _, _. split; [reflexivity|]. do 2 (split; [done|]).
    rewrite !get_finger_states_ok by lia. rewrite E1, E2.
    repeat split; reflexivity.
  - eexists hand1, hand2, _, _. split; [reflexivity|]. do 2 (split; [done|]).
    rewrite !get_finger_states_ok by lia. rewrite E1, E2.
    repeat split; reflexivity.
Qed.

Lemma thumb_rule_follows_raw_label_witness :
  length (landmarks labelled_left) = 21
  ∧ length (landmarks labelled_right) = 21
  ∧ ((handedness labelled_left = "Left" ∧ handedness labelled_right = "Right")
     ∨ (handedness labelled_left = "Right" ∧ handedness labelled_right = "Left"))
  ∧ ∃ left_hand right_hand left_states right_states,
      assign_roles labelled_left labelled_right = (left_hand, right_hand)
      ∧ handedness left_hand = "Right"
      ∧ handedness right_hand = "Left"
      ∧ get_finger_states left_hand = Ok left_states
      ∧ left_states !! "thumb" = Some (thumb_left_of_joint (landmarks left_hand))
      ∧ get_finger_states right_hand = Ok right_states
      ∧ right_states !! "thumb" = Some (thumb_right_of_joint (landmarks right_hand)).
Proof.
  split; [reflexivity|]. split; [reflexivity|].
  split; [left; split; reflexivity|].
  apply (thumb_rule_follows_raw_label labelled_left labelled_right);
    [reflexivity | reflexivity | left; split; reflexivity].
Defined.

End Hands.

(** ** The recognizer: mode selection and hold state *)

Section Recognizer.

Implicit Types (self : GestureRecognizer) (hand : HandLandmarks).
Implicit Types (left_states right_states : gmap string bool).

(** The winning candidate of a frame: the head of the sorted [scores] when
    it reaches the threshold of the mode. *)
Definition best_candidate self left_states right_states (joined_mode : bool)
  : option (string * float) :=
  match sort_desc (collect_scores GESTURE_DEFINITIONS left_states right_states joined_mode) with
  | (best_match, best_confidence, _) :: _ =>
      if PrimFloat.leb
           (PrimFloat.sub (confidence_threshold self)
                          (if joined_mode then 0.05%float else 0%float))
           best_confidence
      then Some (best_match, best_confidence) else None
  | [] => None
  end.

(** The confirmer: what [_find_best_gesture] does with a winning
    candidate packed into [result]. *)
Definition hold_step self (result : GestureResult) (current_time : Z)
  : Py.result (GestureRecognizer * option GestureResult) :=
  let new_hold := Ok (set_hold self (Some result) (Some current_time), Some result) in
  match current_gesture self with
  | Some cur =>
      if String.eqb (sign_name cur) (sign_name result) then
        match gesture_start_time self with
        | None => Raise TypeError
        | Some start =>
            if (hold_time self <=? current_time - start)%Z then
              if (cooldown self <=? current_time - last_confirmed_time self)%Z then
                Ok (set_last_confirmed_time self current_time, Some (confirm result))
              else Ok (self, Some result)
            else Ok (self, Some result)
        end
      else new_hold
  | None => new_hold
  end.

(** The two signals that make one observed hand count as two joined
    hands. *)
Definition joined_signal self (w : Z) (finger_states : gmap string bool) : Prop :=
  (single_hand_min_width self <= w)%Z
  ∨ ((3 <= fingers_up finger_states)%Z ∧ (120 <= w)%Z).

(** The width recorded in a bounding box [(x, y, w, h)]. *)
Definition width (hand : HandLandmarks) : Z := (bounding_box hand).1.2.

(** An open hand, 21 landmarks, of the given bounding-box width. *)
Definition open_hand_of_width (w : Z) : HandLandmarks :=
  sample_hand "Right" 300 (-30) true true true true w 21.

(** A fist, 21 landmarks, of the given bounding-box width. *)
Definition fist_of_width (w : Z) : HandLandmarks :=
  sample_hand "Right" 300 0 false false false false w 21.

(** A recognizer that is holding "horse" since tick 3 and last confirmed
    at tick 1. *)
Definition holding_horse : GestureRecognizer :=
  set_last_confirmed_time
    (set_hold (__init__ 0.8%float 4 5)
       (Some {| sign_name := "horse"; gesture_recognizer.confidence := 1.0%float;
                timestamp := 3; finger_states := ∅; is_confirmed := false |})
       (Some 3%Z))
    1.

Lemma find_best_gesture_steps self left_states right_states current_time joined_mode :
  _find_best_gesture self left_states right_states current_time joined_mode =
  match best_candidate self left_states right_states joined_mode with
  | Some (best_match, best_confidence) =>
      hold_step self
        {| sign_name := best_match;
           gesture_recognizer.confidence := best_confidence;
           timestamp := current_time;
           finger_states := combine_states left_states right_states;
           is_confirmed := false |}
        current_time
  | None => Ok (reset self, None)
  end.
Proof.
  unfold _find_best_gesture, best_candidate, hold_step, reset.
  destruct (sort_desc _) as [|[[m c] p] rest]; [done|].
  destruct (PrimFloat.leb _ c); [|done].
  cbn [sign_name]. reflexivity.
Qed.

Lemma hold_step_not_None self r current_time self' :
  hold_step self r current_time ≠ Ok (self', None).
Proof.
  unfold hold_step.
  repeat match goal with
         | |- context [match ?x with _ => _ end] => destruct x
         end; congruence.
Qed.

Lemma find_best_gesture_None self left_states right_states current_time joined_mode self' :
  _find_best_gesture self left_states right_states current_time joined_mode = Ok (self', None) →
  self' = reset self.
Proof.
  rewrite find_best_gesture_steps.
  destruct (best_candidate _ _ _ _) as [[m c]|].
  - intros H. by apply hold_step_not_None in H.
  - by intros [= <-].
Qed.

Lemma recognize_two_separate_hands_None self hands current_time self' :
  _recognize_two_separate_hands self hands current_time = Ok (self', None) →
  self' = reset self.
Proof.
  unfold _recognize_two_separate_hands.
  destruct (getitem hands 0) as [hand1|]; [|done].
  destruct (getitem hands 1) as [hand2|]; [|done].
  cbn [mbind result_bind].
  destruct (assign_roles hand1 hand2) as [lh rh].
  destruct (_get_center (landmarks lh)) as [c1|]; [|done].
  destruct (_get_center (landmarks rh)) as [c2|]; [|done].
  cbn [mbind result_bind].
  destruct (PrimFloat.ltb _ _); [by intros [= <-]|].
  destruct (get_finger_states lh) as [ls|]; [|done].
  destruct (get_finger_states rh) as [rs|]; [|done].
  cbn [mbind result_bind]. apply find_best_gesture_None.
Qed.

Lemma recognize_joined_hands_None self hand current_time self' :
  _recognize_joined_hands self hand current_time = Ok (self', None) →
  self' = reset self.
Proof.
  unfold _recognize_joined_hands.
  destruct (bounding_box hand) as [[[x y] w] h].
  destruct (get_finger_states hand) as [fs|]; cbn [mbind result_bind];
    [|by destruct (_ <=? _)%Z].
  destruct (_ <=? _)%Z; [apply find_best_gesture_None|].
  destruct (_ && _); [apply find_best_gesture_None|].
  by intros [= <-].
Qed.

(** C8.  With exactly one hand observed (21 landmarks), joined-hand
    matching is run exactly when the bounding box is at least
    [single_hand_min_width] wide (150 px by default), or at least three of
    the five fingers are extended and the box is at least 120 px wide;
    otherwise no template is matched, the hold state is cleared and the
    frame yields nothing. *)
Theorem joined_matching_iff_signal self hand current_time :
  length (landmarks hand) = 21 →
  ∃ finger_states,
    get_finger_states hand = Ok finger_states
    ∧ (joined_signal self (width hand) finger_states →
       recognize_two_hands self [hand] current_time
       = _find_best_gesture self finger_states finger_states current_time true)
    ∧ (¬ joined_signal self (width hand) finger_states →
       recognize_two_hands self [hand] current_time = Ok (reset self, None))
    ∧ ∀ threshold hold cool,
        single_hand_min_width (__init__ threshold hold cool) = 150%Z.
Proof.
  intros Hlen. eexists. split; [apply get_finger_states_ok; lia|].
  unfold recognize_two_hands, _recognize_joined_hands, joined_signal, width.
  cbn [length Nat.eqb Nat.leb getitem lookup list_lookup mbind result_bind].
  destruct (bounding_box hand) as [[[x y] w] h]. cbn [fst snd].
  rewrite get_finger_states_ok by lia. cbn [mbind result_bind].
  split; [|split; [|done]].
  - intros [Hw | [Hf Hw]].
    + by rewrite (proj2 (Z.leb_le _ _) Hw).
    + rewrite (proj2 (Z.leb_le _ _) Hf), (proj2 (Z.leb_le _ _) Hw).
      by destruct (_ <=? _)%Z.
  - intros Hn.
    destruct (Z.leb_spec (single_hand_min_width self) w); [tauto|].
    destruct (Z.leb_spec 3 (fingers_up
      (<["thumb" := if String.eqb (handedness hand) "Right"
                    then thumb_left_of_joint (landmarks hand)
                    else thumb_right_of_joint (landmarks hand)]>
       (<["index" := tip_above_pip (landmarks hand) INDEX_TIP INDEX_PIP]>
        (<["middle" := tip_above_pip (landmarks hand) MIDDLE_TIP MIDDLE_PIP]>
         (<["ring" := tip_above_pip (landmarks hand) RING_TIP RING_PIP]>
          (<["pinky" := tip_above_pip (landmarks hand) PINKY_TIP PINKY_PIP]> ∅)))))));
      destruct (Z.leb_spec 120 w); cbn [andb]; try reflexivity; tauto.
Qed.

(** An open hand 130 px wide: too narrow for the first signal, accepted
    by the second. *)
Lemma joined_matching_iff_signal_witness :
  length (landmarks (open_hand_of_width 130)) = 21
  ∧ ∃ finger_states,
      get_finger_states (open_hand_of_width 130) = Ok finger_states
      ∧ (joined_signal holding_horse (width (open_hand_of_width 130)) finger_states →
         recognize_two_hands holding_horse [open_hand_of_width 130] 9
         = _find_best_gesture holding_horse finger_states finger_states 9 true)
      ∧ (¬ joined_signal holding_horse (width (open_hand_of_width 130)) finger_states →
         recognize_two_hands holding_horse [open_hand_of_width 130] 9
         = Ok (reset holding_horse, None))
      ∧ ∀ threshold hold cool,
          single_hand_min_width (__init__ threshold hold cool) = 150%Z.
Proof.
  split; [reflexivity|].
  apply (joined_matching_iff_signal holding_horse (open_hand_of_width 130) 9%Z).
  reflexivity.
Defined.

(** C9.  A frame that yields no result leaves the recognizer with its hold
    state cleared (no current gesture, no start time) and everything else,
    the last confirmation time included, as it was: the cooldown clock runs
    on across such frames. *)
Theorem no_result_clears_hold_only self hands current_time self' :
  recognize_two_hands self hands current_time = Ok (self', None) →
  self' = reset self
  ∧ current_gesture self' = None
  ∧ gesture_start_time self' = None
  ∧ last_confirmed_time self' = last_confirmed_time self.
Proof.
  intros H. assert (self' = reset self) as ->; [|done].
  unfold recognize_two_hands in H.
  destruct hands as [|hand1 [|hand2 rest]]; cbn [length Nat.eqb Nat.leb] in H.
  - by injection H as <-.
  - cbn in H. by apply recognize_joined_hands_None in H.
  - by apply recognize_two_separate_hands_None in H.
Qed.

(** Hands leave the frame while "horse" is being held. *)
Lemma no_result_clears_hold_only_witness :
  recognize_two_hands holding_horse [] 9 = Ok (reset holding_horse, None)
  ∧ (reset holding_horse = reset holding_horse
     ∧ current_gesture (reset holding_horse) = None
     ∧ gesture_start_time (reset holding_horse) = None
     ∧ last_confirmed_time (reset holding_horse) = last_confirmed_time holding_horse).
Proof.
  split; [reflexivity|].
  apply (no_result_clears_hold_only holding_horse [] 9%Z (reset holding_horse)).
  reflexivity.
Defined.

End Recognizer.

(** ** The confirmer over a run of frames *)

Section Confirmer.

Implicit Types (self : GestureRecognizer) (g : string).
Implicit Types (frames : list (list HandLandmarks * Z)).
Implicit Types (outs : list (option GestureResult)).

(** The frame loop of the caller: one [recognize_two_hands] per frame,
    each frame being the hands seen and the clock reading. *)
Fixpoint run self frames
  : Py.result (GestureRecognizer * list (option GestureResult)) :=
  match frames with
  | [] => Ok (self, [])
  | frame :: rest =>
      step ← recognize_two_hands self frame.1 frame.2;
      more ← run step.1 rest;
      Ok (more.1, step.2 :: more.2)
  end.

(** A frame at every tick from [t] on. *)
Fixpoint ticks_from (t : Z) frames : Prop :=
  match frames with
  | [] => True
  | frame :: rest => frame.2 = t ∧ ticks_from (t + 1) rest
  end.

(** The frame's result names gesture [g]. *)
Definition wins g (out : option GestureResult) : Prop :=
  ∃ r, out = Some r ∧ sign_name r = g.

Definition confirmed (out : option GestureResult) : bool :=
  match out with
  | Some r => is_confirmed r
  | None => false
  end.

(** The number of frames emitted with [is_confirmed = True]. *)
Definition confirmations outs : Z :=
  Z.of_nat (length (filter (fun out => confirmed out = true) outs)).

(** Gesture [g] is being held since [start]. *)
Definition holding g (start : Z) self : Prop :=
  ∃ cur, current_gesture self = Some cur
         ∧ sign_name cur = g
         ∧ gesture_start_time self = Some start.

(** The next tick at which a held gesture can be confirmed. *)
Definition due (start : Z) self : Z :=
  Z.max (start + hold_time self) (last_confirmed_time self + cooldown self).

(** Both hands in the tiger pose, 60 px apart. *)
Definition tiger_hands : list HandLandmarks :=
  [ sample_hand "Right" 300 0 true true false false 100 21;
    sample_hand "Left" 360 0 true true false false 100 21 ].

(** [n] frames of [hands], one per tick from [t] on. *)
Fixpoint steady (hands : list HandLandmarks) (t : Z) (n : nat)
  : list (list HandLandmarks * Z) :=
  match n with
  | O => []
  | S n' => (hands, t) :: steady hands (t + 1) n'
  end.

Definition outputs (r : Py.result (GestureRecognizer * list (option GestureResult)))
  : list (option GestureResult) :=
  match r with
  | Ok p => p.2
  | Raise _ => []
  end.

Definition final_state (self : GestureRecognizer)
    (r : Py.result (GestureRecognizer * list (option GestureResult)))
  : GestureRecognizer :=
  match r with
  | Ok p => p.1
  | Raise _ => self
  end.

(** A result that is returned was built from the winning candidate and
    went through the confirmer. *)
Lemma find_best_gesture_Some self ls rs current_time joined_mode self' r :
  _find_best_gesture self ls rs current_time joined_mode = Ok (self', Some r) →
  ∃ r0, is_confirmed r0 = false ∧ hold_step self r0 current_time = Ok (self', Some r).
Proof.
  rewrite find_best_gesture_steps.
  destruct (best_candidate _ _ _ _) as [[m c]|]; [|done].
  intros H. eexists. split; [|exact H]. done.
Qed.

Lemma recognize_two_hands_Some self hands current_time self' r :
  recognize_two_hands self hands current_time = Ok (self', Some r) →
  ∃ r0, is_confirmed r0 = false ∧ hold_step self r0 current_time = Ok (self', Some r).
Proof.
  unfold recognize_two_hands.
  destruct hands as [|hand1 [|hand2 rest]]; cbn [length Nat.eqb Nat.leb]; [done| |].
  - cbn. unfold _recognize_joined_hands.
    destruct (bounding_box hand1) as [[[x y] w] h].
    destruct (get_finger_states hand1) as [fs|]; cbn [mbind result_bind];
      [|by destruct (_ <=? _)%Z].
    destruct (_ <=? _)%Z; [apply find_best_gesture_Some|].
    destruct (_ && _); [apply find_best_gesture_Some|done].
  - unfold _recognize_two_separate_hands. cbn.
    destruct (assign_roles hand1 hand2) as [lh rh].
    destruct (_get_center (landmarks lh)) as [c1|]; [|done].
    destruct (_get_center (landmarks rh)) as [c2|]; [|done].
    cbn [mbind result_bind].
    destruct (PrimFloat.ltb _ _); [done|].
    destruct (get_finger_states lh) as [ls|]; [|done].
    destruct (get_finger_states rh) as [rs|]; [|done].
    cbn [mbind result_bind]. apply find_best_gesture_Some.
Qed.

(** The confirmer on a gesture already held. *)
Lemma hold_step_same g start self r0 current_time self' r :
  holding g start self → is_confirmed r0 = false →
  hold_step self r0 current_time = Ok (self', Some r) → sign_name r = g →
  let fire := ((hold_time self <=? current_time - start)%Z
               && (cooldown self <=? current_time - last_confirmed_time self)%Z) in
  is_confirmed r = fire
  ∧ self' = (if fire then set_last_confirmed_time self current_time else self).
Proof.
  intros (cur & Hc & Hn & Hs) Hr0. unfold hold_step. rewrite Hc, Hs.
  destruct (String.eqb_spec (sign_name cur) (sign_name r0)) as [E|E].
  - destruct (_ <=? _)%Z; [destruct (_ <=? _)%Z|]; intros [= <- <-] _; cbn; auto.
  - intros [= <- <-] Hg. congruence.
Qed.

(** The confirmer on a gesture that is not the one held. *)
Lemma hold_step_new g self r0 current_time self' r :
  (∀ cur, current_gesture self = Some cur → sign_name cur ≠ g) →
  is_confirmed r0 = false →
  hold_step self r0 current_time = Ok (self', Some r) → sign_name r = g →
  is_confirmed r = false ∧ holding g current_time self'
  ∧ hold_time self' = hold_time self ∧ cooldown self' = cooldown self
  ∧ last_confirmed_time self' = last_confirmed_time self.
Proof.
  intros Hother Hr0. unfold hold_step.
  destruct (current_gesture self) as [cur|] eqn:Hc.
  - destruct (String.eqb_spec (sign_name cur) (sign_name r0)) as [E|E].
    + destruct (gesture_start_time self); [|done].
      destruct (_ <=? _)%Z; [destruct (_ <=? _)%Z|]; intros [= <- <-];
        cbn; intros Hg; exfalso; apply (Hother cur); congruence.
    + intros [= <- <-] Hg. repeat split; try done. by exists r0.
  - intros [= <- <-] Hg. repeat split; try done. by exists r0.
Qed.

Lemma confirmations_cons out outs :
  confirmations (out :: outs)
  = ((if confirmed out then 1 else 0) + confirmations outs)%Z.
Proof.
  unfold confirmations. rewrite filter_cons.
  destruct (confirmed out); case_decide; try done; cbn [length]; lia.
Qed.

(** Between two confirmations lie [cooldown] ticks. *)
Lemma div_next (d D c : Z) :
  (0 < c)%Z → (d <= D)%Z →
  ((D - d) / c + 1 = 1 + (if (d + c <=? D)%Z then (D - (d + c)) / c + 1 else 0))%Z.
Proof.
  intros Hc Hd. destruct (Z.leb_spec (d + c) D).
  - replace (D - d)%Z with ((D - (d + c)) + 1 * c)%Z by lia.
    rewrite Z.div_add by lia. lia.
  - rewrite Z.div_small by lia. lia.
Qed.

(** Counting from tick [t] to the last tick [finish], once [g] is held
    since [start] and no confirmation is overdue. *)
Lemma run_holding g start frames : ∀ t self self' outs,
  ticks_from t frames →
  holding g start self →
  (0 < cooldown self)%Z →
  (start + hold_time self <= due start self)%Z →
  (t <= due start self)%Z →
  run self frames = Ok (self', outs) →
  Forall (wins g) outs →
  let finish := (t + Z.of_nat (length frames) - 1)%Z in
  confirmations outs
  = (if (due start self <=? finish)%Z
     then (finish - due start self) / cooldown self + 1 else 0)%Z.
Proof.
  induction frames as [|[hands now] frames IH]; intros t self self' outs.
  - intros _ _ _ _ Ht [= <- <-] _. cbn [length].
    destruct (_ <=? _)%Z eqn:E; [apply Z.leb_le in E; lia | done].
  - intros [Hnow Hticks] Hhold Hcd Hdue Ht. cbn [run fst snd] in *. subst now.
    destruct (recognize_two_hands self hands t) as [[self1 out]|] eqn:Hstep; [|done].
    cbn [mbind result_bind fst snd].
    destruct (run self1 frames) as [[self2 outs']|] eqn:Hrun; [|done].
    cbn [mbind result_bind fst snd]. intros [= <- <-] Hall.
    apply Forall_cons in Hall as [(r & -> & Hg) Hall].
    apply recognize_two_hands_Some in Hstep as (r0 & Hr0 & Hstep).
    destruct (hold_step_same g start self r0 t self1 r Hhold Hr0 Hstep Hg) as [Hfire Hself1].
    rewrite confirmations_cons. cbn [confirmed]. rewrite Hfire.
    cbn [length]. rewrite Nat2Z.inj_succ.
    unfold due in *.
    destruct ((hold_time self <=? t - start)%Z
              && (cooldown self <=? t - last_confirmed_time self)%Z) eqn:Efire.
    + apply andb_true_iff in Efire as [E1%Z.leb_le E2%Z.leb_le].
      assert (t = Z.max (start + hold_time self)
                        (last_confirmed_time self + cooldown self)) as Et by lia.
      subst self1.
      assert (holding g start (set_last_confirmed_time self t)) as Hhold'
        by (destruct Hhold as (cur & ? & ? & ?); by exists cur).
      specialize (IH (t + 1)%Z (set_last_confirmed_time self t) self2 outs'
                     Hticks Hhold').
      cbn [hold_time cooldown last_confirmed_time set_last_confirmed_time] in IH.
      rewrite IH; try done; try lia.
      replace (Z.max (start + hold_time self) (t + cooldown self))
        with (t + cooldown self)%Z by lia.
      rewrite <- Et.
      replace (t + 1 + Z.of_nat (length frames) - 1)%Z
        with (t + Z.succ (Z.of_nat (length frames)) - 1)%Z by lia.
      destruct (Z.leb_spec t (t + Z.succ (Z.of_nat (length frames)) - 1)); [|lia].
      symmetry. apply div_next; lia.
    + apply andb_false_iff in Efire.
      assert (t < Z.max (start + hold_time self)
                        (last_confirmed_time self + cooldown self))%Z as Hlt.
      { destruct Efire as [E%Z.leb_gt | E%Z.leb_gt]; lia. }
      subst self1.
      specialize (IH (t + 1)%Z self self2 outs' Hticks Hhold).
      rewrite IH; try done; try lia.
      replace (t + 1 + Z.of_nat (length frames) - 1)%Z
        with (t + Z.succ (Z.of_nat (length frames)) - 1)%Z by lia.
      lia.
Qed.

(** C4, as stated, fails when [hold_time] is zero: the frame that starts a
    hold never confirms, so a hold of duration 0 (one frame, cooldown
    elapsed) emits no confirmation where the formula asks for one. *)
Lemma zero_hold_time_single_frame :
  let self := __init__ 0.8%float 0 1 in
  let frames := steady tiger_hands 100 1 in
  let D := 0%Z in
  (hold_time self + 0 * cooldown self <= D)%Z
  ∧ ticks_from 100 frames
  ∧ Z.of_nat (length frames) = (D + 1)%Z
  ∧ current_gesture self = None
  ∧ (last_confirmed_time self + cooldown self <= 100)%Z
  ∧ ∃ self' outs,
      run self frames = Ok (self', outs)
      ∧ Forall (wins "tiger") outs
      ∧ confirmations outs = 0%Z
      ∧ confirmations outs ≠ ((D - hold_time self) / cooldown self + 1)%Z.
Proof.
  cbv zeta. split; [vm_compute; discriminate|]. split; [cbn; done|].
  split; [reflexivity|]. split; [reflexivity|]. split; [vm_compute; discriminate|].
  exists (final_state (__init__ 0.8%float 0 1)
            (run (__init__ 0.8%float 0 1) (steady tiger_hands 100 1))),
         (outputs (run (__init__ 0.8%float 0 1) (steady tiger_hands 100 1))).
  split; [vm_compute; reflexivity|]. split.
  - vm_compute. repeat (constructor; [eexists; split; reflexivity|]). constructor.
  - split; vm_compute; congruence.
Qed.

(** C4 (amended).  Time in clock ticks, a frame at every tick from the
    start [t0] of the hold to [t0 + D], [hold_time] and [cooldown] at least
    one tick, the cooldown elapsed at [t0], and the same gesture returned on
    every frame: exactly [floor((D - hold_time) / cooldown) + 1] of the
    frames carry [is_confirmed = True]. *)
Theorem confirmations_during_hold self frames g t0 D self' outs :
  (0 < hold_time self)%Z →
  (0 < cooldown self)%Z →
  (hold_time self <= D)%Z →
  ticks_from t0 frames →
  Z.of_nat (length frames) = (D + 1)%Z →
  (∀ cur, current_gesture self = Some cur → sign_name cur ≠ g) →
  (last_confirmed_time self + cooldown self <= t0)%Z →
  run self frames = Ok (self', outs) →
  Forall (wins g) outs →
  confirmations outs = ((D - hold_time self) / cooldown self + 1)%Z.
Proof.
  intros Hhold Hcd HD Hticks Hlen Hother Hlast.
  destruct frames as [|[hands now] frames]; [cbn in Hlen; lia|].
  destruct Hticks as [Hnow Hticks]. cbn [run fst snd] in *. subst now.
  destruct (recognize_two_hands self hands t0) as [[self1 out]|] eqn:Hstep; [|done].
  cbn [mbind result_bind fst snd].
  destruct (run self1 frames) as [[self2 outs']|] eqn:Hrun; [|done].
  cbn [mbind result_bind fst snd]. intros [= <- <-] Hall.
  apply Forall_cons in Hall as [(r & -> & Hg) Hall].
  apply recognize_two_hands_Some in Hstep as (r0 & Hr0 & Hstep).
  destruct (hold_step_new g self r0 t0 self1 r Hother Hr0 Hstep Hg)
    as (Hconf & Hheld & Eh & Ec & El).
  rewrite confirmations_cons. cbn [confirmed]. rewrite Hconf.
  cbn [length] in Hlen. rewrite Nat2Z.inj_succ in Hlen.
  rewrite (run_holding g t0 frames (t0 + 1)%Z self1 self2 outs');
    unfold due; rewrite ?Eh, ?Ec, ?El; try done; try lia.
  replace (Z.max (t0 + hold_time self) (last_confirmed_time self + cooldown self))
    with (t0 + hold_time self)%Z by lia.
  destruct (Z.leb_spec (t0 + hold_time self) (t0 + 1 + Z.of_nat (length frames) - 1));
    [|lia].
  replace (t0 + 1 + Z.of_nat (length frames) - 1 - (t0 + hold_time self))%Z
    with (D - hold_time self)%Z by lia.
  lia.
Qed.

(** Six frames of the tiger sign at ticks 10 to 15, hold time and cooldown
    of two ticks: confirmed at ticks 12 and 14. *)
Lemma confirmations_during_hold_witness :
  let self := __init__ 0.8%float 2 2 in
  let frames := steady tiger_hands 10 6 in
  (0 < hold_time self)%Z
  ∧ (0 < cooldown self)%Z
  ∧ (hold_time self <= 5)%Z
  ∧ ticks_from 10 frames
  ∧ Z.of_nat (length frames) = (5 + 1)%Z
  ∧ (∀ cur, current_gesture self = Some cur → sign_name cur ≠ "tiger")
  ∧ (last_confirmed_time self + cooldown self <= 10)%Z
  ∧ run self frames = Ok (final_state self (run self frames), outputs (run self frames))
  ∧ Forall (wins "tiger") (outputs (run self frames))
  ∧ confirmations (outputs (run self frames))
    = ((5 - hold_time self) / cooldown self + 1)%Z.
Proof.
  cbv zeta.
  assert (Forall (wins "tiger")
            (outputs (run (__init__ 0.8%float 2 2) (steady tiger_hands 10 6)))) as Hall.
  { vm_compute. repeat (constructor; [eexists; split; reflexivity|]). constructor. }
  split; [reflexivity|]. split; [reflexivity|]. split; [vm_compute; discriminate|].
  split; [cbn; tauto|]. split; [reflexivity|]. split; [discriminate|].
  split; [vm_compute; discriminate|]. split; [vm_compute; reflexivity|].
  split; [exact Hall|].
  apply (confirmations_during_hold (__init__ 0.8%float 2 2)
           (steady tiger_hands 10 6) "tiger" 10%Z 5%Z
           (final_state (__init__ 0.8%float 2 2)
              (run (__init__ 0.8%float 2 2) (steady tiger_hands 10 6)))
           (outputs (run (__init__ 0.8%float 2 2) (steady tiger_hands 10 6))));
    [reflexivity | reflexivity | vm_compute; discriminate | cbn; tauto | reflexivity
    | discriminate | vm_compute; discriminate | vm_compute; reflexivity | exact Hall].
Defined.

End Confirmer.
